(** * Booking creation workflow ([src/actions/bookings.js])

    A shallow embedding of the server action [createBooking] and of its two
    helpers [getGoogleOAuthToken] and [createGoogleCalendarEvent].

    The JavaScript code is sequential [async]/[await] code over three
    external services (Prisma, Clerk, Google Calendar).  It is embedded in
    an exception monad stacked on a state monad: the state is the
    chronological log of the calls made to the outside world, each with the
    answer it got, and it survives a [throw]; [try]/[catch] is the monad's
    [catch]; an [await] of a rejected promise is a [raise].

    The first embedding takes a rejection to be an error object.  A second
    one, in the module [Raw], also admits [null] and [undefined] as
    rejections, and is used where the difference shows: in what the
    outermost handler does with what it catches. *)

From Stdlib Require Import String ZArith List Bool DecimalString Sorted.
From Stdlib Require Import DecimalPos DecimalZ.
From ExtLib Require Import Structures.Monad Structures.MonadState
  Structures.MonadExc Data.Monads.StateMonad Data.Monads.EitherMonad.
Import ListNotations.
Import MonadNotation.
Local Open Scope string_scope.
Local Open Scope monad_scope.

(** ** JavaScript primitive values *)

Module Js.

(** The primitives that flow through the action.  Numbers are the
    integer-valued ones (HTTP statuses, clock readings). *)
Inductive value : Type :=
| undefined
| null
| boolean (b : bool)
| number (z : Z)
| str (s : string).

(** [a === b] on primitives. *)
Definition strict_eq (a b : value) : bool :=
  match a, b with
  | undefined, undefined => true
  | null, null => true
  | boolean x, boolean y => Bool.eqb x y
  | number x, number y => Z.eqb x y
  | str x, str y => String.eqb x y
  | _, _ => false
  end.

(** [!v]: the falsy primitives. *)
Definition not (v : value) : bool :=
  match v with
  | undefined | null => true
  | boolean b => negb b
  | number z => Z.eqb z 0
  | str s => String.eqb s ""
  end.

(** [`${z}`] for an integer-valued number. *)
Definition number_to_string (z : Z) : string :=
  NilZero.string_of_int (Z.to_int z).

End Js.

(** ** Errors *)

(** What a collaborator rejects with: an error object, as Prisma, Clerk
    and googleapis throw them, of which the action reads [message] and
    [code].  The code of an error is any primitive: Clerk's are strings,
    Google's HTTP statuses are numbers, and an error may have none.
    Rejections with [null] or [undefined] are the matter of the module
    [Raw] further down. *)
Record ServiceError : Type := mkServiceError
  { svc_message : string;
    svc_code : Js.value }.

(** The values that are thrown inside the action.  [OAuthError] is the
    class declared at the top of the file (lines 8-15); it is not exported,
    so only the action itself builds instances of it. *)
#[warnings="-register-all"]
Inductive JsError : Type :=
| OAuthError (message : string) (code : Js.value) (clerkError : option JsError)
| Error (message : string)
| Rejected (e : ServiceError).

Definition message (e : JsError) : string :=
  match e with
  | OAuthError m _ _ => m
  | Error m => m
  | Rejected s => svc_message s
  end.

Definition code (e : JsError) : Js.value :=
  match e with
  | OAuthError _ c _ => c
  | Error _ => Js.undefined
  | Rejected s => svc_code s
  end.

Definition instanceof_OAuthError (e : JsError) : bool :=
  match e with
  | OAuthError _ _ _ => true
  | _ => false
  end.

(** ** Data model *)

Module User.
Record t : Type := mk
  { clerkUserId : string;
    email : string }.
End User.

(** A row of [db.event] read with [include: { user: true }]. *)
Module Event.
Record t : Type := mk
  { id : string;
    title : string;
    userId : string;
    user : User.t }.
End Event.

(** The argument of [createBooking].  The three last fields are only
    handed on, whatever they are. *)
Module BookingData.
Record t : Type := mk
  { eventId : string;
    name : string;
    email : string;
    startTime : Js.value;
    endTime : Js.value;
    additionalInfo : Js.value }.
End BookingData.

(** One element of the [data] array of Clerk's answer. *)
Module OauthAccessToken.
Record t : Type := mk { token : Js.value }.
End OauthAccessToken.

(** The argument of [calendar.events.insert] (lines 79-92). *)
Module Calendar.
Record attendee : Type := mkAttendee { email : string }.

Record requestBody : Type := mkBody
  { summary : string;
    description : Js.value;
    start_dateTime : Js.value;
    end_dateTime : Js.value;
    attendees : list attendee;
    createRequest_requestId : string }.

Record params : Type := mkParams
  { calendarId : string;
    conferenceDataVersion : Z;
    body : requestBody }.

(** [response.data], of which the action reads two fields. *)
Record data : Type := mkData
  { hangoutLink : Js.value;
    id : Js.value }.
End Calendar.

(** What [createGoogleCalendarEvent] returns (lines 94-97). *)
Module GoogleEvent.
Record t : Type := mk
  { meetLink : Js.value;
    googleEventId : Js.value }.
End GoogleEvent.

(** The [data] argument of [db.booking.create] (lines 166-176). *)
Module BookingFields.
Record t : Type := mk
  { eventId : string;
    userId : string;
    name : string;
    email : string;
    startTime : Js.value;
    endTime : Js.value;
    additionalInfo : Js.value;
    meetLink : Js.value;
    googleEventId : Js.value }.
End BookingFields.

(** Modelled from the spec: the Prisma schema of the [Booking] table is
    not part of the sources.  A stored booking is the fields it was created
    with, under a key the store chose. *)
Module Booking.
Record t : Type := mk
  { id : string;
    fields : BookingFields.t }.
End Booking.

(** The object [createBooking] returns.  A key that an object literal
    does not mention is [None]. *)
Module Result.
Record t : Type := mk
  { success : bool;
    error : option string;
    code : option Js.value;
    requiresReauth : option bool;
    details : option string;
    booking : option Booking.t;
    meetLink : option Js.value }.
End Result.

(** ** The outside world *)

(** The answer to an awaited call: [inl] is a rejection. *)
Definition answer (A : Type) : Type := (ServiceError + A)%type.

(** One behaviour of the collaborators: what each call answers, and what
    the clock reads.  The action makes each call at most once, in a fixed
    order, so a function of the arguments covers every behaviour. *)
Record Collaborators : Type := mkCollaborators
  { event_findUnique : string -> answer (option Event.t);
    getUserOauthAccessToken :
      string -> string -> answer (list OauthAccessToken.t);
    events_insert : Js.value -> Calendar.params -> answer Calendar.data;
    booking_create : BookingFields.t -> answer Booking.t;
    Date_now : Z }.

(** The calls that leave the action, as they are logged. *)
Inductive Call : Type :=
| FindUnique (where_id : string) (r : answer (option Event.t))
| GetUserOauthAccessToken (userId provider : string)
    (r : answer (list OauthAccessToken.t))
| EventsInsert (access_token : Js.value) (p : Calendar.params)
    (r : answer Calendar.data)
| BookingCreate (data : BookingFields.t) (r : answer Booking.t)
| ConsoleError (label : string) (e : JsError).

(** ** The monad of the action *)

Definition Async : Type -> Type := eitherT JsError (state (list Call)).

Definition log (c : Call) : Async unit :=
  tr <- get ;; put (tr ++ [c])%list.

(** [await] of a call: the call is logged with its answer, a rejection is
    thrown. *)
Definition await {A : Type} (mk : answer A -> Call) (r : answer A) : Async A :=
  log (mk r) ;;
  match r with
  | inl e => raise (Rejected e)
  | inr a => ret a
  end.

(** Running an action from an empty log. *)
Definition run {A : Type} (m : Async A) : (JsError + A) * list Call :=
  runState (unEitherT m) [].

Definition outcome {A : Type} (m : Async A) : JsError + A := fst (run m).
Definition calls {A : Type} (m : Async A) : list Call := snd (run m).

(** A [try] block whose [catch] clause may [return] from the enclosing
    function: [inl] carries the returned result, [inr] the value the rest
    of the function goes on with. *)
Definition try_ {R A : Type} (body : Async A)
    (handler : JsError -> Async (R + A)) : Async (R + A) :=
  catch (a <- body ;; ret (inr a)) handler.

(** ** The helpers *)

(** [data[0]?.token] (line 31). *)
Definition first_token (data : list OauthAccessToken.t) : Js.value :=
  match nth_error data 0 with
  | Some a => OauthAccessToken.token a
  | None => Js.undefined
  end.

(** The destructured parameter of [createGoogleCalendarEvent]
    (lines 64-72). *)
Record EventParams : Type := mkEventParams
  { p_token : Js.value;
    p_summary : string;
    p_description : Js.value;
    p_startTime : Js.value;
    p_endTime : Js.value;
    p_attendees : list Calendar.attendee;
    p_eventId : string }.

(** The object literal handed to [calendar.events.insert] (lines 79-92),
    built when the clock reads [now]. *)
Definition insert_params (now : Z) (p : EventParams) : Calendar.params :=
  Calendar.mkParams "primary" 1
    (Calendar.mkBody (p_summary p) (p_description p)
       (p_startTime p) (p_endTime p) (p_attendees p)
       (p_eventId p ++ "-" ++ Js.number_to_string now)).

(** The object literal handed to [createGoogleCalendarEvent]
    (lines 140-151). *)
Definition event_params (bookingData : BookingData.t) (event : Event.t)
    (token : Js.value) : EventParams :=
  mkEventParams token
    (BookingData.name bookingData ++ " - " ++ Event.title event)
    (BookingData.additionalInfo bookingData)
    (BookingData.startTime bookingData)
    (BookingData.endTime bookingData)
    [ Calendar.mkAttendee (BookingData.email bookingData);
      Calendar.mkAttendee (User.email (Event.user event)) ]
    (Event.id event).

(** The [data] of [db.booking.create] (lines 166-176). *)
Definition booking_fields (bookingData : BookingData.t) (event : Event.t)
    (googleEvent : GoogleEvent.t) : BookingFields.t :=
  BookingFields.mk
    (Event.id event)
    (Event.userId event)
    (BookingData.name bookingData)
    (BookingData.email bookingData)
    (BookingData.startTime bookingData)
    (BookingData.endTime bookingData)
    (BookingData.additionalInfo bookingData)
    (GoogleEvent.meetLink googleEvent)
    (GoogleEvent.googleEventId googleEvent).

Section Action.

Variable C : Collaborators.

(** Lines 22-57. *)
Definition getGoogleOAuthToken (clerkUserId : string) : Async Js.value :=
  catch
    (data <- await (GetUserOauthAccessToken clerkUserId "oauth_google")
               (getUserOauthAccessToken C clerkUserId "oauth_google") ;;
     let token := first_token data in
     if Js.not token
     then raise (OAuthError "Google Calendar not connected"
                   (Js.str "NO_GOOGLE_CONNECTION") None)
     else ret token)
    (fun error =>
       if Js.strict_eq (code error) (Js.str "oauth_token_retrieval_error")
       then raise (OAuthError "Please reconnect your Google Calendar"
                     (Js.str "GOOGLE_AUTH_REQUIRED") (Some error))
       else raise (OAuthError "Failed to access Google Calendar"
                     (Js.str "GOOGLE_AUTH_ERROR") (Some error))).

(** Lines 64-107. *)
Definition createGoogleCalendarEvent (p : EventParams)
  : Async GoogleEvent.t :=
  catch
    (let params := insert_params (Date_now C) p in
     response <- await (EventsInsert (p_token p) params)
                   (events_insert C (p_token p) params) ;;
     ret (GoogleEvent.mk (Calendar.hangoutLink response)
            (Calendar.id response)))
    (fun error =>
       if Js.strict_eq (code error) (Js.number 401)
       then raise (OAuthError "Google Calendar access expired"
                     (Js.str "GOOGLE_TOKEN_EXPIRED") None)
       else raise (Error "Failed to create Google Calendar event")).

(** ** The action (lines 109-194) *)

(** The [try] block, lines 110-184. *)
Definition createBooking_try (bookingData : BookingData.t)
  : Async Result.t :=
  (* 1. Fetch the event and its creator *)
  event <- await (FindUnique (BookingData.eventId bookingData))
             (event_findUnique C (BookingData.eventId bookingData)) ;;
  match event with
  | None =>
      ret (Result.mk false (Some "Event not found")
             None None None None None)
  | Some event =>
      (* 2. Get and validate Google OAuth token *)
      token <-
        try_ (getGoogleOAuthToken (User.clerkUserId (Event.user event)))
          (fun oauthError =>
             ret (inl (Result.mk false
                         (Some (message oauthError))
                         (Some (code oauthError))
                         (Some (Js.strict_eq (code oauthError)
                                  (Js.str "GOOGLE_AUTH_REQUIRED")))
                         None None None))) ;;
      match token with
      | inl result => ret result
      | inr token =>
          (* 3. Create Google Calendar event *)
          googleEvent <-
            try_ (createGoogleCalendarEvent
                    (event_params bookingData event token))
              (fun calendarError =>
                 if instanceof_OAuthError calendarError
                 then ret (inl (Result.mk false
                                  (Some "Failed to create calendar event. Please reconnect Google Calendar.")
                                  (Some (code calendarError))
                                  (Some true)
                                  None None None))
                 else raise calendarError) ;;
          match googleEvent with
          | inl result => ret result
          | inr googleEvent =>
              (* 4. Create booking in database *)
              let data := booking_fields bookingData event googleEvent in
              booking <- await (BookingCreate data)
                           (booking_create C data) ;;
              ret (Result.mk true None None None None
                     (Some booking)
                     (Some (GoogleEvent.meetLink googleEvent)))
          end
      end
  end.

(** The [catch] clause, lines 185-193. *)
Definition createBooking_catch (error : JsError) : Async Result.t :=
  log (ConsoleError "Error creating booking:" error) ;;
  ret (Result.mk false (Some "Failed to create booking")
         None None (Some (message error)) None None).

Definition createBooking (bookingData : BookingData.t) : Async Result.t :=
  catch (createBooking_try bookingData) createBooking_catch.

End Action.

(** ** A test double *)

(** An in-memory stand-in for the three services: a table of events, the
    linked Google accounts per Clerk user, and a calendar that always
    answers the same. *)
Section Double.

Variable events : list Event.t.
Variable accounts : string -> answer (list OauthAccessToken.t).
Variable calendar : answer Calendar.data.
Variable store : answer string.
Variable clock : Z.

Definition double : Collaborators :=
  {| event_findUnique := fun i =>
       inr (find (fun e => String.eqb (Event.id e) i) events);
     getUserOauthAccessToken := fun u _ => accounts u;
     events_insert := fun _ _ => calendar;
     booking_create := fun d =>
       match store with
       | inl e => inl e
       | inr key => inr (Booking.mk key d)
       end;
     Date_now := clock |}.

End Double.

Definition owner1 : User.t := User.mk "user_1" "owner@example.com".
Definition E1 : Event.t := Event.mk "E1" "Intro call" "u1" owner1.

Definition request (i : string) : BookingData.t :=
  BookingData.mk i "Ada" "ada@example.com"
    (Js.str "2024-05-01T10:00:00Z") (Js.str "2024-05-01T10:30:00Z")
    (Js.str "hello").

Definition linked : string -> answer (list OauthAccessToken.t) :=
  fun _ => inr [OauthAccessToken.mk (Js.str "ya29.token")].

Definition unlinked : string -> answer (list OauthAccessToken.t) :=
  fun _ => inr [].

Definition meet_x : answer Calendar.data :=
  inr (Calendar.mkData (Js.str "https://meet/x") (Js.str "G1")).

(** ** Concrete worlds *)

Definition clock0 : Z := 1714557600000.

(** Everything works. *)
Definition world_ok : Collaborators :=
  double [E1] linked meet_x (inr "b1") clock0.

(** The owner of [E1] never linked a Google account. *)
Definition world_unlinked : Collaborators :=
  double [E1] unlinked meet_x (inr "b1") clock0.

(** Clerk cannot hand out the stored token any more. *)
Definition retrieval_error : ServiceError :=
  mkServiceError "Token expired" (Js.str "oauth_token_retrieval_error").

Definition world_retrieval_error : Collaborators :=
  double [E1] (fun _ => inl retrieval_error) meet_x (inr "b1") clock0.

(** Clerk is unreachable. *)
Definition network_error : ServiceError :=
  mkServiceError "fetch failed" Js.undefined.

Definition world_clerk_down : Collaborators :=
  double [E1] (fun _ => inl network_error) meet_x (inr "b1") clock0.

(** Google rejects the token. *)
Definition invalid_credentials : ServiceError :=
  mkServiceError "Invalid Credentials" (Js.number 401).

Definition unauthorized : answer Calendar.data := inl invalid_credentials.

Definition world_unauthorized : Collaborators :=
  double [E1] linked unauthorized (inr "b1") clock0.

(** The database refuses the insert. *)
Definition db_down : ServiceError :=
  mkServiceError "Can't reach database server" (Js.str "P1001").

Definition world_db_down : Collaborators :=
  double [E1] linked meet_x (inl db_down) clock0.

(** ** The ways through the action *)

(** [Path C bd r tr]: one of the nine ways through [createBooking], with
    the conditions on the collaborators under which it is taken, the
    result [r] it returns and the calls [tr] it makes. *)
Section Paths.

Variable C : Collaborators.
Variable bd : BookingData.t.

Local Abbreviation i := (BookingData.eventId bd).
Local Abbreviation uid ev := (User.clerkUserId (Event.user ev)).
Local Abbreviation found ev := (FindUnique i (inr (Some ev))).
Local Abbreviation asked ev r := (GetUserOauthAccessToken (uid ev) "oauth_google" r).
Local Abbreviation params ev tok :=
  (insert_params (Date_now C) (event_params bd ev tok)).
Local Abbreviation google g :=
  (GoogleEvent.mk (Calendar.hangoutLink g) (Calendar.id g)).
Local Abbreviation unexpected m :=
  (Result.mk false (Some "Failed to create booking") None None (Some m)
     None None).
Local Abbreviation refused m c b :=
  (Result.mk false (Some m) (Some (Js.str c)) (Some b) None None None).
Local Abbreviation logged e := (ConsoleError "Error creating booking:" e).

Inductive Path : Result.t -> list Call -> Prop :=
| LookupRejected e :
    event_findUnique C i = inl e ->
    Path (unexpected (svc_message e))
      [FindUnique i (inl e); logged (Rejected e)]
| EventMissing :
    event_findUnique C i = inr None ->
    Path (Result.mk false (Some "Event not found") None None None None None)
      [FindUnique i (inr None)]
| TokenRetrievalError ev e :
    event_findUnique C i = inr (Some ev) ->
    getUserOauthAccessToken C (uid ev) "oauth_google" = inl e ->
    svc_code e = Js.str "oauth_token_retrieval_error" ->
    Path (refused "Please reconnect your Google Calendar"
            "GOOGLE_AUTH_REQUIRED" true)
      [found ev; asked ev (inl e)]
| TokenOtherError ev e :
    event_findUnique C i = inr (Some ev) ->
    getUserOauthAccessToken C (uid ev) "oauth_google" = inl e ->
    svc_code e <> Js.str "oauth_token_retrieval_error" ->
    Path (refused "Failed to access Google Calendar"
            "GOOGLE_AUTH_ERROR" false)
      [found ev; asked ev (inl e)]
| NoToken ev data :
    event_findUnique C i = inr (Some ev) ->
    getUserOauthAccessToken C (uid ev) "oauth_google" = inr data ->
    Js.not (first_token data) = true ->
    Path (refused "Failed to access Google Calendar"
            "GOOGLE_AUTH_ERROR" false)
      [found ev; asked ev (inr data)]
| CalendarUnauthorized ev data e :
    event_findUnique C i = inr (Some ev) ->
    getUserOauthAccessToken C (uid ev) "oauth_google" = inr data ->
    Js.not (first_token data) = false ->
    events_insert C (first_token data) (params ev (first_token data))
      = inl e ->
    svc_code e = Js.number 401 ->
    Path (refused
            "Failed to create calendar event. Please reconnect Google Calendar."
            "GOOGLE_TOKEN_EXPIRED" true)
      [found ev; asked ev (inr data);
       EventsInsert (first_token data) (params ev (first_token data))
         (inl e)]
| CalendarFailed ev data e :
    event_findUnique C i = inr (Some ev) ->
    getUserOauthAccessToken C (uid ev) "oauth_google" = inr data ->
    Js.not (first_token data) = false ->
    events_insert C (first_token data) (params ev (first_token data))
      = inl e ->
    svc_code e <> Js.number 401 ->
    Path (unexpected "Failed to create Google Calendar event")
      [found ev; asked ev (inr data);
       EventsInsert (first_token data) (params ev (first_token data))
         (inl e);
       logged (Error "Failed to create Google Calendar event")]
| StoreRejected ev data g e :
    event_findUnique C i = inr (Some ev) ->
    getUserOauthAccessToken C (uid ev) "oauth_google" = inr data ->
    Js.not (first_token data) = false ->
    events_insert C (first_token data) (params ev (first_token data))
      = inr g ->
    booking_create C (booking_fields bd ev (google g)) = inl e ->
    Path (unexpected (svc_message e))
      [found ev; asked ev (inr data);
       EventsInsert (first_token data) (params ev (first_token data))
         (inr g);
       BookingCreate (booking_fields bd ev (google g)) (inl e);
       logged (Rejected e)]
| Booked ev data g b :
    event_findUnique C i = inr (Some ev) ->
    getUserOauthAccessToken C (uid ev) "oauth_google" = inr data ->
    Js.not (first_token data) = false ->
    events_insert C (first_token data) (params ev (first_token data))
      = inr g ->
    booking_create C (booking_fields bd ev (google g)) = inr b ->
    Path (Result.mk true None None None None (Some b)
            (Some (Calendar.hangoutLink g)))
      [found ev; asked ev (inr data);
       EventsInsert (first_token data) (params ev (first_token data))
         (inr g);
       BookingCreate (booking_fields bd ev (google g)) (inr b)].

(** Every run of the action returns, along one of the nine paths. *)

End Paths.

(** Google rejects with a code that is the string "401", not the number. *)
Definition status_as_text : ServiceError :=
  mkServiceError "Unauthorized" (Js.str "401").

Definition world_status_as_text : Collaborators :=
  double [E1] linked (inl status_as_text) (inr "b1") clock0.


(** ** The order of the calls *)

(** The rank of a call in the workflow: lookup, token provider, calendar,
    booking store, and last the console of the outermost handler. *)
Definition stage (c : Call) : nat :=
  match c with
  | FindUnique _ _ => 0
  | GetUserOauthAccessToken _ _ _ => 1
  | EventsInsert _ _ _ => 2
  | BookingCreate _ _ => 3
  | ConsoleError _ _ => 4
  end.

(** * Rejections that are not error objects *)

(** An awaited promise may reject with any value.  The embedding above
    types a rejection as an error object; this one also lets a collaborator
    reject with [null] or [undefined], for which reading [error.code]
    (lines 42 and 99) or [error.message] (lines 131 and 191) throws a
    [TypeError].  It reuses the data model, the result and the object
    literals of the first embedding, and agrees with it on collaborators
    that reject with error objects only ([raw_createBooking_agrees]
    below). *)
Module Raw.

Inductive nothing : Type :=
| null
| undefined.

(** What a collaborator rejects with. *)
Inductive rejection : Type :=
| Nothing (n : nothing)
| Object (s : ServiceError).

(** What is thrown inside the action: [null], [undefined], or one of the
    error objects of the first embedding. *)
Inductive thrown : Type :=
| Nullish (n : nothing)
| Raised (e : JsError).

Definition thrown_of (r : rejection) : thrown :=
  match r with
  | Nothing n => Nullish n
  | Object s => Raised (Rejected s)
  end.

Definition answer (A : Type) : Type := (rejection + A)%type.

(** The collaborators, the clock, and the text the JavaScript engine gives
    to the [TypeError] for reading a property of [null] or [undefined]
    (in Node.js, "Cannot read properties of undefined (reading
    'message')"). *)
Record World : Type := mkWorld
  { event_findUnique : string -> answer (option Event.t);
    getUserOauthAccessToken :
      string -> string -> answer (list OauthAccessToken.t);
    events_insert : Js.value -> Calendar.params -> answer Calendar.data;
    booking_create : BookingFields.t -> answer Booking.t;
    Date_now : Z;
    TypeError_message : nothing -> string -> string }.

Inductive Call : Type :=
| FindUnique (where_id : string) (r : answer (option Event.t))
| GetUserOauthAccessToken (userId provider : string)
    (r : answer (list OauthAccessToken.t))
| EventsInsert (access_token : Js.value) (p : Calendar.params)
    (r : answer Calendar.data)
| BookingCreate (data : BookingFields.t) (r : answer Booking.t)
| ConsoleError (label : string) (e : thrown).

Definition Async : Type -> Type := eitherT thrown (state (list Call)).

Definition log (c : Call) : Async unit :=
  tr <- get ;; put (tr ++ [c])%list.

Definition await {A : Type} (mk : answer A -> Call) (r : answer A) : Async A :=
  log (mk r) ;;
  match r with
  | inl e => raise (thrown_of e)
  | inr a => ret a
  end.

Definition run {A : Type} (m : Async A) : (thrown + A) * list Call :=
  runState (unEitherT m) [].

Definition outcome {A : Type} (m : Async A) : thrown + A := fst (run m).
Definition calls {A : Type} (m : Async A) : list Call := snd (run m).

Definition try_ {R A : Type} (body : Async A)
    (handler : thrown -> Async (R + A)) : Async (R + A) :=
  catch (a <- body ;; ret (inr a)) handler.

(** [e instanceof OAuthError]: [false] for [null] and [undefined]. *)
Definition instanceof_OAuthError (e : thrown) : bool :=
  match e with
  | Nullish _ => false
  | Raised err => instanceof_OAuthError err
  end.

(** The third argument of [new OAuthError(message, code, error)]; the
    constructor's default turns [undefined] into [null]. *)
Definition as_clerkError (e : thrown) : option JsError :=
  match e with
  | Nullish _ => None
  | Raised err => Some err
  end.

Section Action.

Variable W : World.

(** The [TypeError] for reading [property] of [n], an [Error] that is no
    [OAuthError] and has no [code]. *)
Definition TypeError (n : nothing) (property : string) : thrown :=
  Raised (Error (TypeError_message W n property)).

(** [e.code] *)
Definition get_code (e : thrown) : Async Js.value :=
  match e with
  | Nullish n => raise (TypeError n "code")
  | Raised err => ret (code err)
  end.

(** [e.message] *)
Definition get_message (e : thrown) : Async string :=
  match e with
  | Nullish n => raise (TypeError n "message")
  | Raised err => ret (message err)
  end.

(** Lines 22-57. *)
Definition getGoogleOAuthToken (clerkUserId : string) : Async Js.value :=
  catch
    (data <- await (GetUserOauthAccessToken clerkUserId "oauth_google")
               (getUserOauthAccessToken W clerkUserId "oauth_google") ;;
     let token := first_token data in
     if Js.not token
     then raise (Raised (OAuthError "Google Calendar not connected"
                           (Js.str "NO_GOOGLE_CONNECTION") None))
     else ret token)
    (fun error =>
       c <- get_code error ;;
       if Js.strict_eq c (Js.str "oauth_token_retrieval_error")
       then raise (Raised (OAuthError "Please reconnect your Google Calendar"
                             (Js.str "GOOGLE_AUTH_REQUIRED")
                             (as_clerkError error)))
       else raise (Raised (OAuthError "Failed to access Google Calendar"
                             (Js.str "GOOGLE_AUTH_ERROR")
                             (as_clerkError error)))).

(** Lines 64-107. *)
Definition createGoogleCalendarEvent (p : EventParams)
  : Async GoogleEvent.t :=
  catch
    (let params := insert_params (Date_now W) p in
     response <- await (EventsInsert (p_token p) params)
                   (events_insert W (p_token p) params) ;;
     ret (GoogleEvent.mk (Calendar.hangoutLink response)
            (Calendar.id response)))
    (fun error =>
       c <- get_code error ;;
       if Js.strict_eq c (Js.number 401)
       then raise (Raised (OAuthError "Google Calendar access expired"
                             (Js.str "GOOGLE_TOKEN_EXPIRED") None))
       else raise (Raised (Error "Failed to create Google Calendar event"))).

(** The [try] block of [createBooking], lines 110-184. *)
Definition createBooking_try (bookingData : BookingData.t)
  : Async Result.t :=
  event <- await (FindUnique (BookingData.eventId bookingData))
             (event_findUnique W (BookingData.eventId bookingData)) ;;
  match event with
  | None =>
      ret (Result.mk false (Some "Event not found")
             None None None None None)
  | Some event =>
      token <-
        try_ (getGoogleOAuthToken (User.clerkUserId (Event.user event)))
          (fun oauthError =>
             m <- get_message oauthError ;;
             c <- get_code oauthError ;;
             c' <- get_code oauthError ;;
             ret (inl (Result.mk false (Some m) (Some c)
                         (Some (Js.strict_eq c'
                                  (Js.str "GOOGLE_AUTH_REQUIRED")))
                         None None None))) ;;
      match token with
      | inl result => ret result
      | inr token =>
          googleEvent <-
            try_ (createGoogleCalendarEvent
                    (event_params bookingData event token))
              (fun calendarError =>
                 if instanceof_OAuthError calendarError
                 then
                   c <- get_code calendarError ;;
                   ret (inl (Result.mk false
                               (Some "Failed to create calendar event. Please reconnect Google Calendar.")
                               (Some c) (Some true) None None None))
                 else raise calendarError) ;;
          match googleEvent with
          | inl result => ret result
          | inr googleEvent =>
              let data := booking_fields bookingData event googleEvent in
              booking <- await (BookingCreate data)
                           (booking_create W data) ;;
              ret (Result.mk true None None None None
                     (Some booking)
                     (Some (GoogleEvent.meetLink googleEvent)))
          end
      end
  end.

(** The [catch] clause, lines 185-193: [error.message] is read of whatever
    was thrown. *)
Definition createBooking_catch (error : thrown) : Async Result.t :=
  log (ConsoleError "Error creating booking:" error) ;;
  m <- get_message error ;;
  ret (Result.mk false (Some "Failed to create booking")
         None None (Some m) None None).

Definition createBooking (bookingData : BookingData.t) : Async Result.t :=
  catch (createBooking_try bookingData) createBooking_catch.

End Action.

End Raw.

(** The collaborators of the first embedding, as a world of this one:
    every rejection is an error object. *)
Definition object_rejections {A : Type} (a : answer A) : Raw.answer A :=
  match a with
  | inl s => inl (Raw.Object s)
  | inr x => inr x
  end.

Definition raw_world (text : Raw.nothing -> string -> string)
    (C : Collaborators) : Raw.World :=
  {| Raw.event_findUnique := fun i => object_rejections (event_findUnique C i);
     Raw.getUserOauthAccessToken := fun u p =>
       object_rejections (getUserOauthAccessToken C u p);
     Raw.events_insert := fun t p => object_rejections (events_insert C t p);
     Raw.booking_create := fun d => object_rejections (booking_create C d);
     Raw.Date_now := Date_now C;
     Raw.TypeError_message := text |}.

Definition raw_call (c : Call) : Raw.Call :=
  match c with
  | FindUnique i r => Raw.FindUnique i (object_rejections r)
  | GetUserOauthAccessToken u p r =>
      Raw.GetUserOauthAccessToken u p (object_rejections r)
  | EventsInsert t p r => Raw.EventsInsert t p (object_rejections r)
  | BookingCreate d r => Raw.BookingCreate d (object_rejections r)
  | ConsoleError l e => Raw.ConsoleError l (Raw.Raised e)
  end.

(** The text of the [TypeError] in Node.js. *)
Definition node_text (n : Raw.nothing) (property : string) : string :=
  "Cannot read properties of "
    ++ match n with Raw.null => "null" | Raw.undefined => "undefined" end
    ++ " (reading '" ++ property ++ "')".

(** The event lookup rejects with [undefined]. *)
Definition world_lookup_rejects_undefined : Raw.World :=
  {| Raw.event_findUnique := fun _ => inl (Raw.Nothing Raw.undefined);
     Raw.getUserOauthAccessToken := fun u _ => object_rejections (linked u);
     Raw.events_insert := fun _ _ => object_rejections meet_x;
     Raw.booking_create := fun d => inr (Booking.mk "b1" d);
     Raw.Date_now := clock0;
     Raw.TypeError_message := node_text |}.

(** The token provider rejects with [null]. *)
Definition world_null_token : Raw.World :=
  {| Raw.event_findUnique := fun _ => inr (Some E1);
     Raw.getUserOauthAccessToken := fun _ _ => inl (Raw.Nothing Raw.null);
     Raw.events_insert := fun _ _ => object_rejections meet_x;
     Raw.booking_create := fun d => inr (Booking.mk "b1" d);
     Raw.Date_now := clock0;
     Raw.TypeError_message := node_text |}.

(** The calendar rejects with [null]. *)
Definition world_null_calendar : Raw.World :=
  {| Raw.event_findUnique := fun _ => inr (Some E1);
     Raw.getUserOauthAccessToken := fun u _ => object_rejections (linked u);
     Raw.events_insert := fun _ _ => inl (Raw.Nothing Raw.null);
     Raw.booking_create := fun _ => inl (Raw.Object db_down);
     Raw.Date_now := clock0;
     Raw.TypeError_message := node_text |}.

(** * Properties *)

(** ** Strict equality *)

Lemma strict_eq_spec (a b : Js.value) : reflect (a = b) (Js.strict_eq a b).
Proof.
  destruct a, b; cbn; try (constructor; congruence).
  - destruct (Bool.eqb_spec b0 b); constructor; congruence.
  - destruct (Z.eqb_spec z z0); constructor; congruence.
  - destruct (String.eqb_spec s s0); constructor; congruence.
Qed.

Lemma strict_eq_true (a b : Js.value) : Js.strict_eq a b = true <-> a = b.
Proof. destruct (strict_eq_spec a b); split; congruence. Qed.

Lemma strict_eq_false (a b : Js.value) : Js.strict_eq a b = false <-> a <> b.
Proof. destruct (strict_eq_spec a b); split; congruence. Qed.

(** Every run of the action returns, along one of the nine paths. *)
Lemma createBooking_path (C : Collaborators) (bd : BookingData.t) :
  exists r tr, run (createBooking C bd) = (inr r, tr) /\ Path C bd r tr.
Proof.
  unfold run, createBooking, createBooking_try, getGoogleOAuthToken,
    createGoogleCalendarEvent, try_, await, log. cbn.
  destruct (event_findUnique C _) as [e | [ev |]] eqn:Hfind; cbn.
  - eexists _, _; split; [reflexivity | now constructor].
  - destruct (getUserOauthAccessToken C _ _) as [e | data] eqn:Htok; cbn.
    + destruct (strict_eq_spec (svc_code e)
                  (Js.str "oauth_token_retrieval_error")) as [Hc | Hc]; cbn.
      * eexists _, _; split; [reflexivity | now eapply TokenRetrievalError].
      * eexists _, _; split; [reflexivity | now eapply TokenOtherError].
    + destruct (Js.not (first_token data)) eqn:Hnot; cbn.
      * eexists _, _; split; [reflexivity | now eapply NoToken].
      * destruct (events_insert C _ _) as [e | g] eqn:Hins; cbn.
        -- destruct (strict_eq_spec (svc_code e) (Js.number 401))
             as [Hc | Hc]; cbn.
           ++ eexists _, _; split;
                [reflexivity | now eapply CalendarUnauthorized].
           ++ eexists _, _; split; [reflexivity | now eapply CalendarFailed].
        -- destruct (booking_create C _) as [e | b] eqn:Hcr; cbn.
           ++ eexists _, _; split; [reflexivity | now eapply StoreRejected].
           ++ eexists _, _; split; [reflexivity | now eapply Booked].
  - eexists _, _; split; [reflexivity | now constructor].
Qed.

Lemma createBooking_runs (C : Collaborators) (bd : BookingData.t) :
  exists r,
    outcome (createBooking C bd) = inr r /\
    Path C bd r (calls (createBooking C bd)).
Proof.
  destruct (createBooking_path C bd) as (r & tr & Hrun & Hp).
  exists r. unfold outcome, calls. rewrite Hrun. split; [reflexivity | exact Hp].
Qed.

(** [along_paths C bd]: replace the run of [createBooking C bd] by each of
    its nine paths in turn. *)
Ltac along_paths C bd :=
  let r := fresh "r" in
  let tr := fresh "tr" in
  let Hrun := fresh "Hrun" in
  let Hp := fresh "Hp" in
  destruct (createBooking_path C bd) as (r & tr & Hrun & Hp);
  unfold outcome, calls in *; rewrite Hrun in *; cbn [fst snd] in *;
  clear Hrun; inversion Hp; subst; clear Hp.

(** [sift]: split the membership of a call in a literal log into its
    cases and drop those where the calls differ. *)
Ltac sift :=
  repeat match goal with
    | H : In _ (_ :: _) |- _ => cbn [In] in H
    | H : In _ [] |- _ => destruct H
    | H : _ \/ _ |- _ => destruct H
    | H : False |- _ => destruct H
    | H : @eq Call _ _ |- _ =>
        first [discriminate H | inversion H; subst; clear H]
    end.

(** ** The test double looks events up by key *)

Lemma find_none_iff (events : list Event.t) (i : string) :
  find (fun e => String.eqb (Event.id e) i) events = None <->
  (forall e, In e events -> Event.id e <> i).
Proof.
  induction events as [| e0 events IH]; cbn.
  - split; [intros _ e [] | reflexivity].
  - destruct (String.eqb_spec (Event.id e0) i) as [Heq | Hne].
    + split; [discriminate |].
      intros H. exfalso. apply (H e0); [left; reflexivity | exact Heq].
    + rewrite IH. split.
      * intros H e [<- | Hin]; [exact Hne | now apply H].
      * intros H e Hin. apply H. now right.
Qed.

(** ** No linked Google account *)

(** The general behaviour behind C1: when the provider answers without a
    usable token, the [OAuthError] with code [NO_GOOGLE_CONNECTION] is
    thrown inside the [try] block of [getGoogleOAuthToken], caught by that
    block's own [catch] clause and wrapped into [GOOGLE_AUTH_ERROR]. *)
Lemma no_token_is_reported_as_auth_error (C : Collaborators)
    (bd : BookingData.t) (ev : Event.t) (data : list OauthAccessToken.t) :
  event_findUnique C (BookingData.eventId bd) = inr (Some ev) ->
  getUserOauthAccessToken C (User.clerkUserId (Event.user ev)) "oauth_google"
    = inr data ->
  Js.not (first_token data) = true ->
  run (createBooking C bd) =
    (inr (Result.mk false (Some "Failed to access Google Calendar")
            (Some (Js.str "GOOGLE_AUTH_ERROR")) (Some false)
            None None None),
     [FindUnique (BookingData.eventId bd) (inr (Some ev));
      GetUserOauthAccessToken (User.clerkUserId (Event.user ev))
        "oauth_google" (inr data)]).
Proof.
  intros Hfind Htok Hnot.
  unfold run, createBooking, createBooking_try, getGoogleOAuthToken,
    try_, await, log. cbn.
  rewrite Hfind. cbn. rewrite Htok. cbn. rewrite Hnot. reflexivity.
Qed.

(** No run at all returns the code [NO_GOOGLE_CONNECTION]. *)
Lemma no_google_connection_never_returned (C : Collaborators)
    (bd : BookingData.t) (r : Result.t) :
  outcome (createBooking C bd) = inr r ->
  Result.code r <> Some (Js.str "NO_GOOGLE_CONNECTION").
Proof.
  intros H. along_paths C bd; inversion H; subst; cbn; discriminate.
Qed.

(** C1 (evaluated at the failing input).  Event [E1] exists and Clerk
    answers with an empty list of Google tokens for its owner: the action
    returns the code [GOOGLE_AUTH_ERROR] with the message "Failed to access
    Google Calendar", not [NO_GOOGLE_CONNECTION]; [requiresReauth] is
    [false], and only the event lookup and the token provider are called. *)
Theorem C1_unlinked_owner_gets_auth_error :
  run (createBooking world_unlinked (request "E1")) =
    (inr (Result.mk false (Some "Failed to access Google Calendar")
            (Some (Js.str "GOOGLE_AUTH_ERROR")) (Some false)
            None None None),
     [FindUnique "E1" (inr (Some E1));
      GetUserOauthAccessToken "user_1" "oauth_google" (inr [])]).
Proof.
  apply (no_token_is_reported_as_auth_error world_unlinked (request "E1")
           E1 []); reflexivity.
Qed.

(** ** C3: the event does not exist *)

(** C3.  When the lookup of [bookingData.eventId] finds no event, the
    action returns [{success: false, error: "Event not found"}] and the
    lookup is the only call it makes: the token provider, the calendar and
    the booking store are not called. *)
Theorem C3_event_not_found (C : Collaborators) (bd : BookingData.t) :
  event_findUnique C (BookingData.eventId bd) = inr None ->
  outcome (createBooking C bd) =
    inr (Result.mk false (Some "Event not found") None None None None None)
  /\ calls (createBooking C bd) =
       [FindUnique (BookingData.eventId bd) (inr None)].
Proof.
  intros Hfind.
  unfold outcome, calls, run, createBooking, createBooking_try, await, log.
  cbn. rewrite Hfind. cbn. split; reflexivity.
Qed.

Lemma C3_event_not_found_witness :
  event_findUnique world_ok (BookingData.eventId (request "E2")) = inr None
  /\ outcome (createBooking world_ok (request "E2")) =
       inr (Result.mk false (Some "Event not found")
              None None None None None)
  /\ calls (createBooking world_ok (request "E2")) =
       [FindUnique "E2" (inr None)].
Proof.
  split; [reflexivity |].
  apply (C3_event_not_found world_ok (request "E2")). reflexivity.
Defined.

(** On the test double, "no stored event has this key" is what makes the
    lookup answer [null]. *)
Lemma double_event_not_found (events : list Event.t)
    (accounts : string -> answer (list OauthAccessToken.t))
    (calendar : answer Calendar.data) (store : answer string) (clock : Z)
    (bd : BookingData.t) :
  (forall e, In e events -> Event.id e <> BookingData.eventId bd) ->
  run (createBooking (double events accounts calendar store clock) bd) =
    (inr (Result.mk false (Some "Event not found") None None None None None),
     [FindUnique (BookingData.eventId bd) (inr None)]).
Proof.
  intros Hnone. apply find_none_iff in Hnone.
  unfold run, createBooking, createBooking_try, await, log. cbn.
  rewrite Hnone. reflexivity.
Qed.

(** ** C4, C5: the token provider fails *)

(** C4.  In every run in which the call to the token provider is rejected
    with an error whose code is ['oauth_token_retrieval_error'], the action
    returns a failure with code [GOOGLE_AUTH_REQUIRED] and
    [requiresReauth: true] (its message is "Please reconnect your Google
    Calendar"). *)
Theorem C4_token_retrieval_error (C : Collaborators) (bd : BookingData.t)
    (u pr : string) (e : ServiceError) :
  In (GetUserOauthAccessToken u pr (inl e)) (calls (createBooking C bd)) ->
  svc_code e = Js.str "oauth_token_retrieval_error" ->
  outcome (createBooking C bd) =
    inr (Result.mk false (Some "Please reconnect your Google Calendar")
           (Some (Js.str "GOOGLE_AUTH_REQUIRED")) (Some true)
           None None None).
Proof.
  intros Hin Hcode. along_paths C bd; sift; try reflexivity.
  contradiction.
Qed.

Lemma C4_token_retrieval_error_witness :
  outcome (createBooking world_retrieval_error (request "E1")) =
    inr (Result.mk false (Some "Please reconnect your Google Calendar")
           (Some (Js.str "GOOGLE_AUTH_REQUIRED")) (Some true)
           None None None).
Proof.
  apply (C4_token_retrieval_error world_retrieval_error (request "E1")
           "user_1" "oauth_google" retrieval_error).
  - right. left. reflexivity.
  - reflexivity.
Defined.

(** C5.  In every run in which the call to the token provider is rejected
    with an error whose code is anything but
    ['oauth_token_retrieval_error'], the action returns a failure with code
    [GOOGLE_AUTH_ERROR] and [requiresReauth: false] (its message is "Failed
    to access Google Calendar"). *)
Theorem C5_other_provider_error (C : Collaborators) (bd : BookingData.t)
    (u pr : string) (e : ServiceError) :
  In (GetUserOauthAccessToken u pr (inl e)) (calls (createBooking C bd)) ->
  svc_code e <> Js.str "oauth_token_retrieval_error" ->
  outcome (createBooking C bd) =
    inr (Result.mk false (Some "Failed to access Google Calendar")
           (Some (Js.str "GOOGLE_AUTH_ERROR")) (Some false)
           None None None).
Proof.
  intros Hin Hcode. along_paths C bd; sift; try reflexivity.
  contradiction.
Qed.

Lemma C5_other_provider_error_witness :
  outcome (createBooking world_clerk_down (request "E1")) =
    inr (Result.mk false (Some "Failed to access Google Calendar")
           (Some (Js.str "GOOGLE_AUTH_ERROR")) (Some false)
           None None None).
Proof.
  apply (C5_other_provider_error world_clerk_down (request "E1")
           "user_1" "oauth_google" network_error).
  - right. left. reflexivity.
  - discriminate.
Defined.

(** ** C2: the calendar rejects the token *)

(** C2, as stated, fails.  Google answers the insert with a 401: the
    result has the code and the flag of the claim, but its [error] is the
    fixed text of the [catch] clause at lines 152-160, not the message of
    the [OAuthError] thrown by [createGoogleCalendarEvent]. *)
Lemma C2_error_text_counterexample :
  In (EventsInsert (Js.str "ya29.token")
        (insert_params clock0
           (event_params (request "E1") E1 (Js.str "ya29.token")))
        (inl invalid_credentials))
     (calls (createBooking world_unauthorized (request "E1")))
  /\ svc_code invalid_credentials = Js.number 401
  /\ outcome (createBooking world_unauthorized (request "E1")) <>
       inr (Result.mk false (Some "Google Calendar access expired")
              (Some (Js.str "GOOGLE_TOKEN_EXPIRED")) (Some true)
              None None None).
Proof.
  split; [| split].
  - right. right. left. reflexivity.
  - reflexivity.
  - discriminate.
Qed.

(** C2 (amended).  In every run in which the calendar insert is rejected
    with an error whose code is the number 401, the action returns
    [{success: false, error: "Failed to create calendar event. Please
    reconnect Google Calendar.", code: "GOOGLE_TOKEN_EXPIRED",
    requiresReauth: true}], and the booking store's insert is not called. *)
Theorem C2_calendar_unauthorized (C : Collaborators) (bd : BookingData.t)
    (tok : Js.value) (p : Calendar.params) (e : ServiceError) :
  In (EventsInsert tok p (inl e)) (calls (createBooking C bd)) ->
  svc_code e = Js.number 401 ->
  outcome (createBooking C bd) =
    inr (Result.mk false
           (Some "Failed to create calendar event. Please reconnect Google Calendar.")
           (Some (Js.str "GOOGLE_TOKEN_EXPIRED")) (Some true)
           None None None)
  /\ (forall d r, ~ In (BookingCreate d r) (calls (createBooking C bd))).
Proof.
  intros Hin Hcode. along_paths C bd; sift; try contradiction.
  split; [reflexivity |]. intros d r Hd. sift.
Qed.

Lemma C2_calendar_unauthorized_witness :
  outcome (createBooking world_unauthorized (request "E1")) =
    inr (Result.mk false
           (Some "Failed to create calendar event. Please reconnect Google Calendar.")
           (Some (Js.str "GOOGLE_TOKEN_EXPIRED")) (Some true)
           None None None)
  /\ (forall d r,
        ~ In (BookingCreate d r)
            (calls (createBooking world_unauthorized (request "E1")))).
Proof.
  apply (C2_calendar_unauthorized world_unauthorized (request "E1")
           (Js.str "ya29.token")
           (insert_params clock0
              (event_params (request "E1") E1 (Js.str "ya29.token")))
           invalid_credentials).
  - right. right. left. reflexivity.
  - reflexivity.
Defined.

(** ** C6: full success *)

(** C6.  In every run in which the event lookup, the token provider, the
    calendar insert and the booking insert all answer successfully, the
    booking handed to the store carries exactly the [hangoutLink] and the
    [id] of the calendar's answer as [meetLink] and [googleEventId], and
    the action returns [{success: true, booking, meetLink}] with the
    booking the store answered and that same link. *)
Theorem C6_full_success (C : Collaborators) (bd : BookingData.t)
    (i u pr : string) (ev : Event.t) (data : list OauthAccessToken.t)
    (tok : Js.value) (p : Calendar.params) (g : Calendar.data)
    (d : BookingFields.t) (b : Booking.t) :
  In (FindUnique i (inr (Some ev))) (calls (createBooking C bd)) ->
  In (GetUserOauthAccessToken u pr (inr data)) (calls (createBooking C bd)) ->
  In (EventsInsert tok p (inr g)) (calls (createBooking C bd)) ->
  In (BookingCreate d (inr b)) (calls (createBooking C bd)) ->
  BookingFields.meetLink d = Calendar.hangoutLink g
  /\ BookingFields.googleEventId d = Calendar.id g
  /\ outcome (createBooking C bd) =
       inr (Result.mk true None None None None (Some b)
              (Some (Calendar.hangoutLink g))).
Proof.
  intros Hfind Htok Hins Hcreate.
  along_paths C bd; sift.
  repeat split.
Qed.

Lemma C6_full_success_witness :
  BookingFields.meetLink
    (booking_fields (request "E1") E1
       (GoogleEvent.mk (Js.str "https://meet/x") (Js.str "G1")))
    = Js.str "https://meet/x"
  /\ BookingFields.googleEventId
       (booking_fields (request "E1") E1
          (GoogleEvent.mk (Js.str "https://meet/x") (Js.str "G1")))
     = Js.str "G1"
  /\ outcome (createBooking world_ok (request "E1")) =
       inr (Result.mk true None None None None
              (Some (Booking.mk "b1"
                       (booking_fields (request "E1") E1
                          (GoogleEvent.mk (Js.str "https://meet/x")
                             (Js.str "G1")))))
              (Some (Js.str "https://meet/x"))).
Proof.
  apply (C6_full_success world_ok (request "E1")
           "E1" "user_1" "oauth_google" E1
           [OauthAccessToken.mk (Js.str "ya29.token")]
           (Js.str "ya29.token")
           (insert_params clock0
              (event_params (request "E1") E1 (Js.str "ya29.token")))
           (Calendar.mkData (Js.str "https://meet/x") (Js.str "G1"))).
  - left. reflexivity.
  - right. left. reflexivity.
  - right. right. left. reflexivity.
  - right. right. right. left. reflexivity.
Defined.

(** ** C7: what the calendar is asked *)

(** C7.  In every run that reaches the calendar insert, the event that was
    looked up exists, the [summary] of the calendar event is the
    requester's name, then " - ", then the title of that event, and its
    [attendees] are the requester's email followed by the email of the
    event's owner. *)
Theorem C7_summary_and_attendees (C : Collaborators) (bd : BookingData.t)
    (tok : Js.value) (p : Calendar.params) (r : answer Calendar.data) :
  In (EventsInsert tok p r) (calls (createBooking C bd)) ->
  exists ev,
    event_findUnique C (BookingData.eventId bd) = inr (Some ev)
    /\ Calendar.summary (Calendar.body p) =
         BookingData.name bd ++ " - " ++ Event.title ev
    /\ Calendar.attendees (Calendar.body p) =
         [ Calendar.mkAttendee (BookingData.email bd);
           Calendar.mkAttendee (User.email (Event.user ev)) ].
Proof.
  intros Hin. along_paths C bd; sift; exists ev; repeat split; assumption.
Qed.

Lemma C7_summary_and_attendees_witness :
  exists ev,
    event_findUnique world_ok "E1" = inr (Some ev)
    /\ Calendar.summary
         (insert_params clock0
            (event_params (request "E1") E1 (Js.str "ya29.token"))).(Calendar.body)
       = "Ada" ++ " - " ++ Event.title ev
    /\ Calendar.attendees
         (insert_params clock0
            (event_params (request "E1") E1 (Js.str "ya29.token"))).(Calendar.body)
       = [ Calendar.mkAttendee "ada@example.com";
           Calendar.mkAttendee (User.email (Event.user ev)) ].
Proof.
  apply (C7_summary_and_attendees world_ok (request "E1")
           (Js.str "ya29.token")
           (insert_params clock0
              (event_params (request "E1") E1 (Js.str "ya29.token")))
           meet_x).
  right. right. left. reflexivity.
Defined.

(** ** C9: the calendar event comes first *)

(** C9.  In every run, if the booking store's insert is called, then the
    calendar insert was called before it and answered successfully, and no
    calendar insert of the run was rejected. *)
Theorem C9_booking_after_calendar (C : Collaborators) (bd : BookingData.t)
    (d : BookingFields.t) (r : answer Booking.t) :
  In (BookingCreate d r) (calls (createBooking C bd)) ->
  (exists before tok p g between after,
      calls (createBooking C bd) =
        (before ++ EventsInsert tok p (inr g)
           :: between ++ BookingCreate d r :: after)%list)
  /\ (forall tok p e,
        ~ In (EventsInsert tok p (inl e)) (calls (createBooking C bd))).
Proof.
  intros Hin. along_paths C bd; sift.
  - split.
    + eexists [_; _], _, _, _, [], [_]. reflexivity.
    + intros tok p e0 H'. sift.
  - split.
    + eexists [_; _], _, _, _, [], []. reflexivity.
    + intros tok p e0 H'. sift.
Qed.

Lemma C9_booking_after_calendar_witness :
  (exists before tok p g between after,
      calls (createBooking world_db_down (request "E1")) =
        (before ++ EventsInsert tok p (inr g)
           :: between
           ++ BookingCreate
                (booking_fields (request "E1") E1
                   (GoogleEvent.mk (Js.str "https://meet/x") (Js.str "G1")))
                (inl db_down)
           :: after)%list)
  /\ (forall tok p e,
        ~ In (EventsInsert tok p (inl e))
            (calls (createBooking world_db_down (request "E1")))).
Proof.
  apply (C9_booking_after_calendar world_db_down (request "E1")).
  right. right. right. left. reflexivity.
Defined.

(** ** C8: the outermost handler *)

(** A run of the action is a run of its [try] block, followed, when the
    block throws, by the [catch] clause. *)
Lemma run_createBooking (C : Collaborators) (bd : BookingData.t) :
  run (createBooking C bd) =
    match run (createBooking_try C bd) with
    | (inl e, tr) =>
        (inr (Result.mk false (Some "Failed to create booking")
                None None (Some (message e)) None None),
         (tr ++ [ConsoleError "Error creating booking:" e])%list)
    | (inr r, tr) => (inr r, tr)
    end.
Proof.
  unfold run, createBooking. cbn -[createBooking_try].
  destruct (runState (unEitherT (createBooking_try C bd)) [])
    as [[e | r] tr]; reflexivity.
Qed.

(** What can escape the [try] block: a rejected event lookup, a rejected
    booking insert, or the plain [Error] of [createGoogleCalendarEvent]. *)
Lemma createBooking_try_throws (C : Collaborators) (bd : BookingData.t)
    (e : JsError) :
  outcome (createBooking_try C bd) = inl e ->
  e = Error "Failed to create Google Calendar event"
  \/ exists s, e = Rejected s
       /\ (In (FindUnique (BookingData.eventId bd) (inl s))
             (calls (createBooking_try C bd))
           \/ exists d, In (BookingCreate d (inl s))
                          (calls (createBooking_try C bd))).
Proof.
  unfold outcome, calls, run, createBooking_try, getGoogleOAuthToken,
    createGoogleCalendarEvent, try_, await, log. cbn.
  destruct (event_findUnique C _) as [s | [ev |]]; cbn;
    [intros [= <-]; right; exists s; split; [reflexivity | left; now left]
    | | discriminate].
  destruct (getUserOauthAccessToken C _ _) as [s | data]; cbn.
  { destruct (Js.strict_eq _ _); cbn; discriminate. }
  destruct (Js.not (first_token data)); cbn; [discriminate |].
  destruct (events_insert C _ _) as [s | g]; cbn.
  { destruct (Js.strict_eq _ _); cbn; [discriminate |].
    intros [= <-]. now left. }
  destruct (booking_create C _) as [s | b] eqn:Hb; cbn; [| discriminate].
  intros [= <-]. right. exists s. split; [reflexivity |].
  right. eexists. do 3 right. left. reflexivity.
Qed.

(** The embedding with raw rejections agrees with the first one on
    collaborators that reject with error objects only: same result, same
    calls. *)
Lemma raw_createBooking_agrees (text : Raw.nothing -> string -> string)
    (C : Collaborators) (bd : BookingData.t) :
  Raw.run (Raw.createBooking (raw_world text C) bd) =
    (match outcome (createBooking C bd) with
     | inl e => inl (Raw.Raised e)
     | inr r => inr r
     end,
     map raw_call (calls (createBooking C bd))).
Proof.
  unfold outcome, calls, run, createBooking, createBooking_try,
    createBooking_catch, getGoogleOAuthToken, createGoogleCalendarEvent,
    try_, await, log.
  unfold Raw.run, Raw.createBooking, Raw.createBooking_try,
    Raw.createBooking_catch, Raw.getGoogleOAuthToken,
    Raw.createGoogleCalendarEvent, Raw.try_, Raw.await, Raw.log,
    Raw.get_code, Raw.get_message.
  cbn.
  destruct (event_findUnique C _) as [s | [ev |]]; cbn; try reflexivity.
  destruct (getUserOauthAccessToken C _ _) as [s | data]; cbn.
  { destruct (Js.strict_eq _ _); reflexivity. }
  destruct (Js.not (first_token data)); cbn; [reflexivity |].
  destruct (events_insert C _ _) as [s | g]; cbn.
  { destruct (Js.strict_eq _ _); reflexivity. }
  destruct (booking_create C _) as [s | b]; reflexivity.
Qed.

(** [raw_paths W]: unfold the action over raw rejections and follow the
    answers of the collaborators of [W] one after the other. *)
Ltac raw_unfold :=
  unfold Raw.outcome, Raw.calls, Raw.run, Raw.createBooking,
    Raw.createBooking_try, Raw.createBooking_catch,
    Raw.getGoogleOAuthToken, Raw.createGoogleCalendarEvent, Raw.try_,
    Raw.await, Raw.log, Raw.get_code, Raw.get_message, Raw.TypeError in *;
  cbn in *.

Ltac raw_paths W :=
  raw_unfold;
  destruct (Raw.event_findUnique W _) as [[n | s] | [ev |]]; cbn in *;
  [ | | destruct (Raw.getUserOauthAccessToken W _ _)
          as [[n | s] | data]; cbn in *;
        [ | destruct (Js.strict_eq (svc_code s) _); cbn in *
          | destruct (Js.not (first_token data)); cbn in *;
            [ | destruct (Raw.events_insert W _ _) as [[n | s] | g];
                cbn in *;
                [ | destruct (Js.strict_eq (svc_code s) _); cbn in *
                  | destruct (Raw.booking_create W _) as [[n | s] | b];
                    cbn in * ] ] ]
    | ].

(** C8, as stated, fails.  The event lookup rejects with [undefined]: the
    outermost handler logs it and then reads [error.message] of
    [undefined] (line 191), which throws, and [createBooking] itself
    rejects with that [TypeError] instead of returning a result. *)
Lemma C8_undefined_rejection_counterexample :
  Raw.outcome
    (Raw.createBooking world_lookup_rejects_undefined (request "E1")) =
    inl (Raw.Raised
           (Error "Cannot read properties of undefined (reading 'message')"))
  /\ ~ (exists r,
          Raw.outcome
            (Raw.createBooking world_lookup_rejects_undefined (request "E1"))
          = inr r).
Proof.
  split; [reflexivity |]. intros (r & Hr). discriminate Hr.
Qed.

(** C8 (amended).  For every input and every behaviour of the
    collaborators in which neither the event lookup nor the booking insert
    rejects with [null] or [undefined], the action returns a result and
    throws nothing.  Whatever escapes its [try] block is then an error
    object, which the outermost handler turns into [{success: false, error:
    "Failed to create booking", details: <message of the exception>}]; so
    is, in particular, the rejection of the booking insert.  (The token
    provider and the calendar may reject with anything.) *)
Theorem C8_returns_unless_nullish_rejection (W : Raw.World)
    (bd : BookingData.t) :
  (forall i n,
      ~ In (Raw.FindUnique i (inl (Raw.Nothing n)))
          (Raw.calls (Raw.createBooking W bd))) ->
  (forall d n,
      ~ In (Raw.BookingCreate d (inl (Raw.Nothing n)))
          (Raw.calls (Raw.createBooking W bd))) ->
  (exists r, Raw.outcome (Raw.createBooking W bd) = inr r)
  /\ (forall e,
        Raw.outcome (Raw.createBooking_try W bd) = inl e ->
        exists err,
          e = Raw.Raised err
          /\ Raw.outcome (Raw.createBooking W bd) =
               inr (Result.mk false (Some "Failed to create booking")
                      None None (Some (message err)) None None))
  /\ (forall d s,
        In (Raw.BookingCreate d (inl (Raw.Object s)))
           (Raw.calls (Raw.createBooking W bd)) ->
        Raw.outcome (Raw.createBooking W bd) =
          inr (Result.mk false (Some "Failed to create booking")
                 None None (Some (svc_message s)) None None)).
Proof.
  intros Hlookup Hinsert.
  raw_paths W;
    try (exfalso; eapply Hlookup; left; reflexivity);
    try (exfalso; eapply Hinsert; do 3 right; left; reflexivity);
    (split; [eexists; reflexivity | split]);
    try (intros e [= <-]; eexists; split; reflexivity);
    try (intros e [=]; fail);
    intros d s' Hin;
    repeat match goal with
      | H : _ \/ _ |- _ => destruct H
      | H : False |- _ => destruct H
      | H : @eq Raw.Call _ _ |- _ =>
          first [discriminate H | inversion H; subst; clear H]
      end;
    reflexivity.
Qed.

(** A run in which the calendar rejects with [null]: the helper's [catch]
    clause throws the [TypeError] for reading [code], which escapes the
    [try] block and is returned by the outermost handler. *)
Lemma C8_returns_unless_nullish_rejection_witness :
  Raw.outcome (Raw.createBooking_try world_null_calendar (request "E1")) =
    inl (Raw.Raised (Error "Cannot read properties of null (reading 'code')"))
  /\ Raw.outcome (Raw.createBooking world_null_calendar (request "E1")) =
       inr (Result.mk false (Some "Failed to create booking") None None
              (Some "Cannot read properties of null (reading 'code')")
              None None).
Proof.
  split; [reflexivity |].
  destruct (proj1 (proj2
              (C8_returns_unless_nullish_rejection world_null_calendar
                 (request "E1")
                 ltac:(intros i n Hin; cbn in Hin;
                       repeat (destruct Hin as [Hin | Hin];
                               [discriminate Hin |]);
                       exact Hin)
                 ltac:(intros d n Hin; cbn in Hin;
                       repeat (destruct Hin as [Hin | Hin];
                               [discriminate Hin |]);
                       exact Hin)))
              (Raw.Raised
                 (Error "Cannot read properties of null (reading 'code')"))
              eq_refl)
    as (err & Herr & Hout).
  injection Herr as <-. exact Hout.
Defined.

(** The converse: the action throws exactly when the event lookup or the
    booking insert rejects with [null] or [undefined], and what it throws
    is the [TypeError] for reading [message]. *)
Lemma raw_createBooking_throws (W : Raw.World) (bd : BookingData.t)
    (e : Raw.thrown) :
  Raw.outcome (Raw.createBooking W bd) = inl e <->
  exists n,
    e = Raw.TypeError W n "message"
    /\ (In (Raw.FindUnique (BookingData.eventId bd) (inl (Raw.Nothing n)))
          (Raw.calls (Raw.createBooking W bd))
        \/ exists d,
             In (Raw.BookingCreate d (inl (Raw.Nothing n)))
                (Raw.calls (Raw.createBooking W bd))).
Proof.
  raw_paths W; split;
    try (intros [=]; fail);
    try (intros [= <-]; exists n; split;
         [ reflexivity
         | first [ left; left; reflexivity
                 | right; eexists; do 3 right; left; reflexivity ] ]);
    intros (n' & -> & [Hin | (d & Hin)]);
    repeat match goal with
      | H : _ \/ _ |- _ => destruct H
      | H : False |- _ => destruct H
      | H : @eq Raw.Call _ _ |- _ =>
          first [discriminate H | inversion H; subst; clear H]
      end;
    reflexivity.
Qed.

(** A token provider that rejects with [null] still gets a result: the
    helper's [catch] clause throws the [TypeError] for reading [code], and
    the caller reports its message, with no code. *)
Example null_token_rejection :
  Raw.outcome (Raw.createBooking world_null_token (request "E1")) =
    inr (Result.mk false
           (Some "Cannot read properties of null (reading 'code')")
           (Some Js.undefined) (Some false) None None None).
Proof. reflexivity. Qed.

(** ** C10: one successful path *)



(** ** The scenarios of the specification *)

Example scenario_E1 :
  exists r,
    outcome (createBooking world_ok (request "E1")) = inr r
    /\ Result.success r = true
    /\ Result.meetLink r = Some (Js.str "https://meet/x")
    /\ option_map (fun b => BookingFields.googleEventId (Booking.fields b))
         (Result.booking r) = Some (Js.str "G1").
Proof. eexists. repeat split. Qed.

Example scenario_E2 :
  outcome (createBooking world_ok (request "E2")) =
    inr (Result.mk false (Some "Event not found") None None None None None).
Proof. reflexivity. Qed.

(** * Further properties of the helpers *)

(** ** [getGoogleOAuthToken] *)

(** X1.  [getGoogleOAuthToken] returns a token exactly when the provider
    answers and the first entry of its [data] carries a truthy token; the
    token returned is that one.  Whatever the outcome, the helper makes one
    call, to the provider ["oauth_google"] for the given user. *)
Theorem getGoogleOAuthToken_returns (C : Collaborators) (u : string) :
  (forall t,
      outcome (getGoogleOAuthToken C u) = inr t <->
      exists data,
        getUserOauthAccessToken C u "oauth_google" = inr data
        /\ first_token data = t /\ Js.not t = false)
  /\ calls (getGoogleOAuthToken C u) =
       [GetUserOauthAccessToken u "oauth_google"
          (getUserOauthAccessToken C u "oauth_google")].
Proof.
  unfold outcome, calls, run, getGoogleOAuthToken, await, log. cbn.
  destruct (getUserOauthAccessToken C u "oauth_google") as [s | data]; cbn.
  - destruct (Js.strict_eq _ _); cbn; (split; [| reflexivity]);
      intros t; (split; [discriminate | intros (d & [=] & _)]).
  - destruct (Js.not (first_token data)) eqn:Hnot; cbn;
      (split; [| reflexivity]); intros t; split.
    + discriminate.
    + intros (d & [= <-] & <- & Hf). congruence.
    + intros [= <-]. now exists data.
    + intros (d & [= <-] & <- & _). reflexivity.
Qed.



(** X3.  The edge of an answer without a usable first token (an empty
    [data], or a first entry whose token is [undefined], [null] or the
    empty string, whatever follows it): the helper throws
    [GOOGLE_AUTH_ERROR], with the [NO_GOOGLE_CONNECTION] error it raised
    first kept as [clerkError]. *)
Theorem getGoogleOAuthToken_no_token (C : Collaborators) (u : string)
    (data : list OauthAccessToken.t) :
  getUserOauthAccessToken C u "oauth_google" = inr data ->
  Js.not (first_token data) = true ->
  outcome (getGoogleOAuthToken C u) =
    inl (OAuthError "Failed to access Google Calendar"
           (Js.str "GOOGLE_AUTH_ERROR")
           (Some (OAuthError "Google Calendar not connected"
                    (Js.str "NO_GOOGLE_CONNECTION") None))).
Proof.
  intros Hans Hnot.
  unfold outcome, run, getGoogleOAuthToken, await, log. cbn.
  rewrite Hans. cbn. rewrite Hnot. reflexivity.
Qed.

(** An account whose first token is empty, followed by a usable one. *)
Lemma getGoogleOAuthToken_no_token_witness :
  outcome
    (getGoogleOAuthToken
       (double [E1]
          (fun _ => inr [OauthAccessToken.mk (Js.str "");
                         OauthAccessToken.mk (Js.str "ya29.token")])
          meet_x (inr "b1") clock0)
       "user_1") =
    inl (OAuthError "Failed to access Google Calendar"
           (Js.str "GOOGLE_AUTH_ERROR")
           (Some (OAuthError "Google Calendar not connected"
                    (Js.str "NO_GOOGLE_CONNECTION") None))).
Proof.
  apply (getGoogleOAuthToken_no_token _ "user_1"
           [OauthAccessToken.mk (Js.str "");
            OauthAccessToken.mk (Js.str "ya29.token")]);
    reflexivity.
Defined.

(** ** [createGoogleCalendarEvent] *)

(** X4.  [createGoogleCalendarEvent] makes one call: an insert into the
    calendar ["primary"], with [conferenceDataVersion] 1, under the access
    token it was given, whose body hands on the summary, description,
    times and attendees of its parameter, with the request id made of the
    event id, a hyphen and the clock reading.  It returns exactly when the
    insert is answered, with the answer's [hangoutLink] as [meetLink] and
    its [id] as [googleEventId]. *)
Theorem createGoogleCalendarEvent_returns (C : Collaborators)
    (p : EventParams) :
  (exists q a,
      calls (createGoogleCalendarEvent C p) = [EventsInsert (p_token p) q a]
      /\ a = events_insert C (p_token p) q
      /\ q = Calendar.mkParams "primary" 1
               (Calendar.mkBody (p_summary p) (p_description p)
                  (p_startTime p) (p_endTime p) (p_attendees p)
                  (p_eventId p ++ "-" ++ Js.number_to_string (Date_now C)))
      /\ (forall g,
             outcome (createGoogleCalendarEvent C p) = inr g <->
             exists d, a = inr d
                       /\ g = GoogleEvent.mk (Calendar.hangoutLink d)
                                (Calendar.id d))).
Proof.
  exists (insert_params (Date_now C) p),
    (events_insert C (p_token p) (insert_params (Date_now C) p)).
  unfold outcome, calls, run, createGoogleCalendarEvent, await, log. cbn.
  destruct (events_insert C (p_token p) (insert_params (Date_now C) p))
    as [s | d]; cbn.
  - destruct (Js.strict_eq _ _); cbn; repeat (split; [reflexivity |]);
      intros g; (split; [discriminate | intros (d & [=] & _)]).
  - repeat (split; [reflexivity |]). intros g. split.
    + intros [= <-]. now exists d.
    + intros (d' & [= <-] & ->). reflexivity.
Qed.



(** ** The conference request id *)

Lemma number_to_string_inj (a b : Z) :
  Js.number_to_string a = Js.number_to_string b -> a = b.
Proof.
  unfold Js.number_to_string. intros H.
  assert (Hnil : forall z, Z.to_int z <> Decimal.Pos Decimal.Nil
                           /\ Z.to_int z <> Decimal.Neg Decimal.Nil).
  { intros [| q | q]; cbn; split; try discriminate;
      intros [= Hq]; now apply (Unsigned.to_uint_nonnil q). }
  apply DecimalZ.to_int_inj.
  assert (Some (Z.to_int a) = Some (Z.to_int b)) as [= ->]; [| reflexivity].
  rewrite <- (NilZero.isi (Z.to_int a)) by apply Hnil.
  rewrite <- (NilZero.isi (Z.to_int b)) by apply Hnil.
  now rewrite H.
Qed.

Lemma append_cancel_l (s t t' : string) : s ++ t = s ++ t' -> t = t'.
Proof.
  induction s as [| c s IH]; cbn; [easy |].
  intros [= H]. now apply IH.
Qed.

(** X6.  Two inserts for the same event made at different clock readings
    carry different conference request ids. *)
Theorem requestId_differs_with_clock (now now' : Z) (p : EventParams) :
  now <> now' ->
  Calendar.createRequest_requestId (Calendar.body (insert_params now p)) <>
  Calendar.createRequest_requestId (Calendar.body (insert_params now' p)).
Proof.
  intros Hne H. apply Hne. cbn in H.
  apply append_cancel_l in H. injection H as H.
  now apply number_to_string_inj.
Qed.

Lemma requestId_differs_with_clock_witness :
  Calendar.createRequest_requestId
    (Calendar.body
       (insert_params 1714557600000
          (event_params (request "E1") E1 (Js.str "ya29.token")))) <>
  Calendar.createRequest_requestId
    (Calendar.body
       (insert_params 1714557600001
          (event_params (request "E1") E1 (Js.str "ya29.token")))).
Proof.
  apply (requestId_differs_with_clock 1714557600000 1714557600001).
  discriminate.
Defined.

(** * Further properties of [createBooking] *)

(** ** What each service is asked *)

(** X7.  Every run starts with the lookup of [bookingData.eventId], and
    its calls follow the order of the workflow: lookup, token provider,
    calendar, booking store, console.  No service is called twice. *)
Theorem createBooking_call_order (C : Collaborators) (bd : BookingData.t) :
  (exists rest,
      calls (createBooking C bd) =
        FindUnique (BookingData.eventId bd)
          (event_findUnique C (BookingData.eventId bd)) :: rest)
  /\ StronglySorted lt (map stage (calls (createBooking C bd))).
Proof.
  along_paths C bd;
    (split;
     [ eexists; repeat f_equal; congruence
     | cbn; repeat constructor ]).
Qed.

(** X8.  The token provider is only asked for the Clerk user who owns the
    event that the lookup found, and for the provider ["oauth_google"]. *)
Theorem createBooking_asks_for_owner (C : Collaborators)
    (bd : BookingData.t) (u pr : string)
    (a : answer (list OauthAccessToken.t)) :
  In (GetUserOauthAccessToken u pr a) (calls (createBooking C bd)) ->
  exists ev,
    event_findUnique C (BookingData.eventId bd) = inr (Some ev)
    /\ u = User.clerkUserId (Event.user ev)
    /\ pr = "oauth_google".
Proof.
  intros Hin. along_paths C bd; sift; exists ev; repeat split; assumption.
Qed.

Lemma createBooking_asks_for_owner_witness :
  exists ev,
    event_findUnique world_clerk_down (BookingData.eventId (request "E1"))
      = inr (Some ev)
    /\ "user_1" = User.clerkUserId (Event.user ev)
    /\ "oauth_google" = "oauth_google".
Proof.
  apply (createBooking_asks_for_owner world_clerk_down (request "E1")
           "user_1" "oauth_google" (inl network_error)).
  right. left. reflexivity.
Defined.

(** X9.  The calendar is only called under a truthy access token, the
    first one of the provider's answer for the event's owner.  The insert
    goes to the calendar ["primary"] with [conferenceDataVersion] 1; its
    description and its start and end times are [additionalInfo],
    [startTime] and [endTime] of the request as they came, and its
    conference request id is the id of the event found, a hyphen and the
    clock reading. *)
Theorem createBooking_calendar_request (C : Collaborators)
    (bd : BookingData.t) (tok : Js.value) (p : Calendar.params)
    (a : answer Calendar.data) :
  In (EventsInsert tok p a) (calls (createBooking C bd)) ->
  exists ev data,
    event_findUnique C (BookingData.eventId bd) = inr (Some ev)
    /\ getUserOauthAccessToken C (User.clerkUserId (Event.user ev))
         "oauth_google" = inr data
    /\ tok = first_token data
    /\ Js.not tok = false
    /\ Calendar.calendarId p = "primary"
    /\ Calendar.conferenceDataVersion p = 1%Z
    /\ Calendar.description (Calendar.body p) = BookingData.additionalInfo bd
    /\ Calendar.start_dateTime (Calendar.body p) = BookingData.startTime bd
    /\ Calendar.end_dateTime (Calendar.body p) = BookingData.endTime bd
    /\ Calendar.createRequest_requestId (Calendar.body p) =
         Event.id ev ++ "-" ++ Js.number_to_string (Date_now C).
Proof.
  intros Hin. along_paths C bd; sift; exists ev, data;
    repeat (split; [first [assumption | reflexivity] |]); reflexivity.
Qed.

Lemma createBooking_calendar_request_witness :
  exists ev data,
    event_findUnique world_ok (BookingData.eventId (request "E1"))
      = inr (Some ev)
    /\ getUserOauthAccessToken world_ok (User.clerkUserId (Event.user ev))
         "oauth_google" = inr data
    /\ Js.str "ya29.token" = first_token data
    /\ Js.not (Js.str "ya29.token") = false
    /\ Calendar.calendarId
         (insert_params clock0
            (event_params (request "E1") E1 (Js.str "ya29.token")))
       = "primary"
    /\ Calendar.conferenceDataVersion
         (insert_params clock0
            (event_params (request "E1") E1 (Js.str "ya29.token")))
       = 1%Z
    /\ Calendar.description
         (Calendar.body
            (insert_params clock0
               (event_params (request "E1") E1 (Js.str "ya29.token"))))
       = BookingData.additionalInfo (request "E1")
    /\ Calendar.start_dateTime
         (Calendar.body
            (insert_params clock0
               (event_params (request "E1") E1 (Js.str "ya29.token"))))
       = BookingData.startTime (request "E1")
    /\ Calendar.end_dateTime
         (Calendar.body
            (insert_params clock0
               (event_params (request "E1") E1 (Js.str "ya29.token"))))
       = BookingData.endTime (request "E1")
    /\ Calendar.createRequest_requestId
         (Calendar.body
            (insert_params clock0
               (event_params (request "E1") E1 (Js.str "ya29.token"))))
       = Event.id ev ++ "-" ++ Js.number_to_string (Date_now world_ok).
Proof.
  apply (createBooking_calendar_request world_ok (request "E1")
           (Js.str "ya29.token")
           (insert_params clock0
              (event_params (request "E1") E1 (Js.str "ya29.token")))
           meet_x).
  right. right. left. reflexivity.
Defined.

(** X10.  The booking handed to the store refers to the event that the
    lookup found (its [id] as [eventId], its [userId] as [userId]) and
    copies the name, email, times and additional information of the
    request unchanged. *)
Theorem createBooking_booking_fields (C : Collaborators)
    (bd : BookingData.t) (d : BookingFields.t) (a : answer Booking.t) :
  In (BookingCreate d a) (calls (createBooking C bd)) ->
  exists ev,
    event_findUnique C (BookingData.eventId bd) = inr (Some ev)
    /\ BookingFields.eventId d = Event.id ev
    /\ BookingFields.userId d = Event.userId ev
    /\ BookingFields.name d = BookingData.name bd
    /\ BookingFields.email d = BookingData.email bd
    /\ BookingFields.startTime d = BookingData.startTime bd
    /\ BookingFields.endTime d = BookingData.endTime bd
    /\ BookingFields.additionalInfo d = BookingData.additionalInfo bd.
Proof.
  intros Hin. along_paths C bd; sift; exists ev;
    repeat (split; [first [assumption | reflexivity] |]); reflexivity.
Qed.

Lemma createBooking_booking_fields_witness :
  exists ev,
    event_findUnique world_ok (BookingData.eventId (request "E1"))
      = inr (Some ev)
    /\ BookingFields.eventId
         (booking_fields (request "E1") E1
            (GoogleEvent.mk (Js.str "https://meet/x") (Js.str "G1")))
       = Event.id ev
    /\ BookingFields.userId
         (booking_fields (request "E1") E1
            (GoogleEvent.mk (Js.str "https://meet/x") (Js.str "G1")))
       = Event.userId ev
    /\ BookingFields.name
         (booking_fields (request "E1") E1
            (GoogleEvent.mk (Js.str "https://meet/x") (Js.str "G1")))
       = BookingData.name (request "E1")
    /\ BookingFields.email
         (booking_fields (request "E1") E1
            (GoogleEvent.mk (Js.str "https://meet/x") (Js.str "G1")))
       = BookingData.email (request "E1")
    /\ BookingFields.startTime
         (booking_fields (request "E1") E1
            (GoogleEvent.mk (Js.str "https://meet/x") (Js.str "G1")))
       = BookingData.startTime (request "E1")
    /\ BookingFields.endTime
         (booking_fields (request "E1") E1
            (GoogleEvent.mk (Js.str "https://meet/x") (Js.str "G1")))
       = BookingData.endTime (request "E1")
    /\ BookingFields.additionalInfo
         (booking_fields (request "E1") E1
            (GoogleEvent.mk (Js.str "https://meet/x") (Js.str "G1")))
       = BookingData.additionalInfo (request "E1").
Proof.
  apply (createBooking_booking_fields world_ok (request "E1")
           (booking_fields (request "E1") E1
              (GoogleEvent.mk (Js.str "https://meet/x") (Js.str "G1")))
           (inr (Booking.mk "b1"
                   (booking_fields (request "E1") E1
                      (GoogleEvent.mk (Js.str "https://meet/x")
                         (Js.str "G1")))))).
  right. right. right. left. reflexivity.
Defined.

(** ** Failures after the token stage *)

(** X11.  In every run in which the calendar insert is rejected with a
    code other than the number 401 (a missing code, another status, the
    string "401"), the action returns [{success: false, error: "Failed to
    create booking", details: "Failed to create Google Calendar event"}]:
    the result carries neither [code] nor [requiresReauth] nor the
    calendar's own message, the booking store is not called, and the
    helper's [Error] is written to the console. *)
Theorem createBooking_calendar_failure (C : Collaborators)
    (bd : BookingData.t) (tok : Js.value) (p : Calendar.params)
    (s : ServiceError) :
  In (EventsInsert tok p (inl s)) (calls (createBooking C bd)) ->
  svc_code s <> Js.number 401 ->
  outcome (createBooking C bd) =
    inr (Result.mk false (Some "Failed to create booking") None None
           (Some "Failed to create Google Calendar event") None None)
  /\ (forall d a, ~ In (BookingCreate d a) (calls (createBooking C bd)))
  /\ In (ConsoleError "Error creating booking:"
           (Error "Failed to create Google Calendar event"))
        (calls (createBooking C bd)).
Proof.
  intros Hin Hcode. along_paths C bd; sift; try contradiction.
  split; [reflexivity | split].
  - intros d a Hd. sift.
  - do 3 right. left. reflexivity.
Qed.

Lemma createBooking_calendar_failure_witness :
  outcome (createBooking world_status_as_text (request "E1")) =
    inr (Result.mk false (Some "Failed to create booking") None None
           (Some "Failed to create Google Calendar event") None None)
  /\ (forall d a,
        ~ In (BookingCreate d a)
            (calls (createBooking world_status_as_text (request "E1"))))
  /\ In (ConsoleError "Error creating booking:"
           (Error "Failed to create Google Calendar event"))
        (calls (createBooking world_status_as_text (request "E1"))).
Proof.
  apply (createBooking_calendar_failure world_status_as_text (request "E1")
           (Js.str "ya29.token")
           (insert_params clock0
              (event_params (request "E1") E1 (Js.str "ya29.token")))
           status_as_text).
  - right. right. left. reflexivity.
  - discriminate.
Defined.

(** X12.  In every run in which the booking insert is rejected, the
    calendar event has been created just before, and after the rejection
    the action only writes the error to the console: the calendar is not
    called again, so the event stays. *)
Theorem createBooking_no_rollback (C : Collaborators) (bd : BookingData.t)
    (d : BookingFields.t) (s : ServiceError) :
  In (BookingCreate d (inl s)) (calls (createBooking C bd)) ->
  exists before tok p g,
    calls (createBooking C bd) =
      (before ++ [ EventsInsert tok p (inr g);
                   BookingCreate d (inl s);
                   ConsoleError "Error creating booking:" (Rejected s) ])%list
    /\ BookingFields.meetLink d = Calendar.hangoutLink g
    /\ BookingFields.googleEventId d = Calendar.id g.
Proof.
  intros Hin. along_paths C bd; sift.
  eexists [_; _], _, _, _. repeat split.
Qed.

Lemma createBooking_no_rollback_witness :
  exists before tok p g,
    calls (createBooking world_db_down (request "E1")) =
      (before
         ++ [ EventsInsert tok p (inr g);
              BookingCreate
                (booking_fields (request "E1") E1
                   (GoogleEvent.mk (Js.str "https://meet/x") (Js.str "G1")))
                (inl db_down);
              ConsoleError "Error creating booking:" (Rejected db_down) ])%list
    /\ BookingFields.meetLink
         (booking_fields (request "E1") E1
            (GoogleEvent.mk (Js.str "https://meet/x") (Js.str "G1")))
       = Calendar.hangoutLink g
    /\ BookingFields.googleEventId
         (booking_fields (request "E1") E1
            (GoogleEvent.mk (Js.str "https://meet/x") (Js.str "G1")))
       = Calendar.id g.
Proof.
  apply (createBooking_no_rollback world_db_down (request "E1")).
  right. right. right. left. reflexivity.
Defined.


(** ** The shape of the result *)

(** X14.  A successful result carries [booking] and [meetLink] and no
    [error], [code], [requiresReauth] or [details]; a failed one carries
    an [error] and neither [booking] nor [meetLink]. *)
Theorem createBooking_result_shape (C : Collaborators) (bd : BookingData.t) :
  exists r,
    outcome (createBooking C bd) = inr r
    /\ (Result.success r = true ->
        Result.booking r <> None /\ Result.meetLink r <> None
        /\ Result.error r = None /\ Result.code r = None
        /\ Result.requiresReauth r = None /\ Result.details r = None)
    /\ (Result.success r = false ->
        Result.error r <> None
        /\ Result.booking r = None /\ Result.meetLink r = None).
Proof.
  along_paths C bd; eexists; (split; [reflexivity |]); cbn;
    (split; intros Hx; try discriminate Hx; repeat split; discriminate).
Qed.


(** X16.  A result with code [GOOGLE_AUTH_REQUIRED] or [GOOGLE_AUTH_ERROR]
    comes from a run that stopped at the token provider: its calls are the
    event lookup and the provider call, and neither the calendar nor the
    booking store is called. *)
Theorem createBooking_stops_at_token (C : Collaborators) (bd : BookingData.t)
    (r : Result.t) :
  outcome (createBooking C bd) = inr r ->
  Result.code r = Some (Js.str "GOOGLE_AUTH_REQUIRED")
  \/ Result.code r = Some (Js.str "GOOGLE_AUTH_ERROR") ->
  exists ev a,
    calls (createBooking C bd) =
      [ FindUnique (BookingData.eventId bd) (inr (Some ev));
        GetUserOauthAccessToken (User.clerkUserId (Event.user ev))
          "oauth_google" a ].
Proof.
  intros Hr Hc. along_paths C bd; inversion Hr; subst; cbn in Hc;
    destruct Hc as [Hc | Hc]; try discriminate Hc;
    now eexists _, _.
Qed.

Lemma createBooking_stops_at_token_witness :
  exists ev a,
    calls (createBooking world_unlinked (request "E1")) =
      [ FindUnique (BookingData.eventId (request "E1")) (inr (Some ev));
        GetUserOauthAccessToken (User.clerkUserId (Event.user ev))
          "oauth_google" a ].
Proof.
  apply (createBooking_stops_at_token world_unlinked (request "E1")
           (Result.mk false (Some "Failed to access Google Calendar")
              (Some (Js.str "GOOGLE_AUTH_ERROR")) (Some false)
              None None None)).
  - reflexivity.
  - right. reflexivity.
Defined.


